(** * The S3-upload Lambda handler of [lambda/index.py]

    The module consists of one import and one function:

<<
    import json

    def handler(event, context):
        print("File uploaded")
        secret_arn = os.environ.get("SECRETS_MANAGER_ARN")

        print(f"Secret ARN: {secret_arn}")

        return {
            "statusCode": 200,
            "body": json.dumps("Success")
        }
>>

    The body is embedded as a computation in a small state-and-exception
    monad.  The state holds what the function can observe or change: the
    process environment, the heap objects its two arguments point to, and
    the text written to standard output.  Global names ([print], [os],
    [json]) are resolved at call time, as Python does: first in the
    namespace of the module, then among the builtins, and a name found in
    neither raises [NameError]. *)

From stdpp Require Import base strings gmap list.
From Stdlib Require Import ZArith Ascii.

#[local] Set Warnings "-register-all".

Local Open Scope string_scope.

(** ** Objects, values and exceptions *)

(** The modules the source names. *)
Inductive pymodule := mod_json | mod_os.

(** The attribute names the source asks for: [os.environ], [environ.get],
    [json.dumps]. *)
Inductive attr := attr_environ | attr_get | attr_dumps.

(** The objects of the model: those a global name of the handler, or an
    attribute of one, denotes when the names are bound by [import json],
    [import os] and [def handler], or left to the builtins.  A Python
    namespace can bind a name to any object; a statement over all
    namespaces ranges over these. *)
Inductive object :=
| ObjModule (m : pymodule)   (* a module object *)
| ObjHandler                 (* the function [handler] of this module *)
| ObjPrint                   (* the builtin [print] *)
| ObjEnviron                 (* the mapping [os.environ] *)
| ObjEnvironGet              (* the bound method [os.environ.get] *)
| ObjJsonDumps.              (* the function [json.dumps] *)

(** What the calls of the body evaluate to: [None] or a [str]. *)
Inductive value := VNone | VStr (s : string).

Inductive exn :=
| NameError (name : string)              (* name 'name' is not defined *)
| AttributeError (o : object) (a : attr) (* o has no attribute a *)
| TypeError (o : object).                (* o cannot be called with one str *)

(** The dict the handler returns, with its two keys. *)
Record response := Response { statusCode : Z; body : value }.

(** Heap objects: what an event payload or an invocation context can be.
    The handler receives references to them. *)
Inductive pyobj :=
| PNone
| PInt (n : Z)
| PStr (s : string)
| PList (xs : list pyobj)
| PDict (items : list (string * pyobj))
| PInstance (cls : string) (fields : list (string * pyobj)).

Definition addr := nat.

(** ** Interpreter state *)

Record state := State {
  environ : gmap string string;  (* the process environment, [os.environ] *)
  store   : gmap addr pyobj;     (* heap objects, by address *)
  stdout  : list string          (* one entry per [print] call, oldest first *)
}.

Definition write_stdout (line : string) (st : state) : state :=
  {| environ := environ st; store := store st; stdout := stdout st ++ [line] |}.

(** ** The monad *)

Inductive outcome (A : Type) :=
| Returned (a : A)
| Raised (e : exn).
Arguments Returned {A} a.
Arguments Raised {A} e.

Definition Py (A : Type) : Type := state → outcome A * state.

Definition ret {A} (a : A) : Py A := λ st, (Returned a, st).

Definition raise {A} (e : exn) : Py A := λ st, (Raised e, st).

Definition bind {A B} (m : Py A) (k : A → Py B) : Py B :=
  λ st, match m st with
        | (Returned a, st') => k a st'
        | (Raised e, st') => (Raised e, st')
        end.

Declare Scope py_scope.
Delimit Scope py_scope with py.
Notation "'let*' x ':=' m 'in' k" := (bind m (λ x, k))
  (at level 10, x name, m at level 100, k at level 200) : py_scope.

(** ** Name resolution *)

(** A module namespace: the global names bound in it. *)
Abbreviation namespace := (gmap string object).

(** Of the names the handler resolves ([print], [os], [json]) only [print]
    is a builtin. *)
Definition builtins : namespace := {[ "print" := ObjPrint ]}.

(** LOAD_GLOBAL: the module namespace, then the builtins, else [NameError]. *)
Definition load_global (G : namespace) (name : string) : Py object :=
  match G !! name with
  | Some o => ret o
  | None =>
      match builtins !! name with
      | Some o => ret o
      | None => raise (NameError name)
      end
  end.

(** The namespace of [index.py] once the module has been executed:
    line 1, [import json], binds [json]; line 3, [def handler], binds
    [handler].  Nothing binds [os]. *)
Definition index_globals : namespace :=
  <["handler" := ObjHandler]> (<["json" := ObjModule mod_json]> ∅).

(** ** Attribute access and calls *)

Definition getattr (o : object) (a : attr) : Py object :=
  match o, a with
  | ObjModule mod_os, attr_environ => ret ObjEnviron
  | ObjModule mod_json, attr_dumps => ret ObjJsonDumps
  | ObjEnviron, attr_get => ret ObjEnvironGet
  | _, _ => raise (AttributeError o a)
  end.

(** [json.dumps] of a [str], with the default [ensure_ascii=True]: the text
    between double quotes, with the quote, the backslash and every
    character outside space..tilde escaped.  Characters are code points
    below 256. *)
Definition dquote : Ascii.ascii := "034"%char.
Definition backslash : Ascii.ascii := "092"%char.

Definition hex_digit (n : N) : Ascii.ascii :=
  match n with
  | 0 => "0" | 1 => "1" | 2 => "2" | 3 => "3" | 4 => "4" | 5 => "5"
  | 6 => "6" | 7 => "7" | 8 => "8" | 9 => "9" | 10 => "a" | 11 => "b"
  | 12 => "c" | 13 => "d" | 14 => "e" | _ => "f"
  end%N%char.

Definition json_escape_char (c : Ascii.ascii) : string :=
  let n := Ascii.N_of_ascii c in
  if (n =? 34)%N then String backslash (String dquote "")
  else if (n =? 92)%N then String backslash (String backslash "")
  else if (n =? 8)%N then String backslash "b"
  else if (n =? 12)%N then String backslash "f"
  else if (n =? 10)%N then String backslash "n"
  else if (n =? 13)%N then String backslash "r"
  else if (n =? 9)%N then String backslash "t"
  else if ((32 <=? n) && (n <=? 126))%N then String c ""
  else String backslash
         ("u00" ++ String (hex_digit (n / 16)) (String (hex_digit (n mod 16)) "")).

Fixpoint json_escape (s : string) : string :=
  match s with
  | EmptyString => ""
  | String c s' => json_escape_char c ++ json_escape s'
  end.

Definition json_dumps_str (s : string) : string :=
  String dquote (json_escape s ++ String dquote "").

(** [os.environ.get(key)]: the value, or [None] (the default) when the key
    is not set. *)
Definition environ_get (key : string) : Py value :=
  λ st, (Returned (match environ st !! key with
                   | Some v => VStr v
                   | None => VNone
                   end), st).

(** [print(s)]: one more entry on standard output; evaluates to [None].
    Standard output is taken to accept every string of the model (code
    points below 256 on a UTF-8 stream), so the write does not fail. *)
Definition print (s : string) : Py value :=
  λ st, (Returned VNone, write_stdout s st).

(** The call [f(s)] with a single [str] argument, which is the shape of
    every call in the body. *)
Definition call_str (f : object) (s : string) : Py value :=
  match f with
  | ObjPrint => print s
  | ObjEnvironGet => environ_get s
  | ObjJsonDumps => ret (VStr (json_dumps_str s))
  | ObjModule _ | ObjEnviron | ObjHandler => raise (TypeError f)
  end.

(** The replacement field [{secret_arn}] of the f-string: [format(v, "")],
    which is [str(v)]. *)
Definition py_format (v : value) : string :=
  match v with
  | VNone => "None"
  | VStr s => s
  end.

(** ** The handler *)

Local Open Scope py_scope.

(** [handler(event, context)], run with [G] as the globals of its module. *)
Definition handler (G : namespace) (event context : addr) : Py response :=
  let* print_ := load_global G "print" in
  let* _ := call_str print_ "File uploaded" in
  let* os := load_global G "os" in
  let* os_environ := getattr os attr_environ in
  let* os_environ_get := getattr os_environ attr_get in
  let* secret_arn := call_str os_environ_get "SECRETS_MANAGER_ARN" in
  let* print_ := load_global G "print" in
  let* _ := call_str print_ ("Secret ARN: " ++ py_format secret_arn) in
  let* json := load_global G "json" in
  let* json_dumps := getattr json attr_dumps in
  let* body := call_str json_dumps "Success" in
  ret {| statusCode := 200; body := body |}.

(** Successive invocations in one process: each starts in the state the
    previous one left, whether it returned or raised. *)
Fixpoint invocations (G : namespace) (n : nat) (event context : addr)
    (st : state) : list (outcome response) * state :=
  match n with
  | O => ([], st)
  | S k =>
      let (o, st') := handler G event context st in
      let (rest, st'') := invocations G k event context st' in
      (o :: rest, st'')
  end.

(** What one invocation wrote: standard output after it, without what was
    there before it. *)
Definition emitted (before after : state) : list string :=
  drop (length (stdout before)) (stdout after).

(** ** Concrete inputs *)

Definition config_key : string := "SECRETS_MANAGER_ARN".

(** An empty event dict at address 0, a context object at address 1. *)
Definition scenario_store : gmap addr pyobj :=
  {[ 0 := PDict []; 1 := PInstance "LambdaContext" [] ]}.

(** The key is set to a secret locator. *)
Definition scenario_A : state :=
  {| environ := {[ "SECRETS_MANAGER_ARN" := "arn:aws:secretsmanager:...:secret:foo" ]};
     store := scenario_store;
     stdout := [] |}.

(** The key is not set. *)
Definition scenario_B : state :=
  {| environ := ∅; store := scenario_store; stdout := [] |}.

(** The response the body builds on its last line. *)
Definition success_response : response :=
  {| statusCode := 200; body := VStr (json_dumps_str "Success") |}.

(** The namespace [G] with [os] bound as [import os] would bind it. *)
Definition with_import_os (G : namespace) : namespace :=
  <["os" := ObjModule mod_os]> G.

(** ** Reading the environment, writing output *)

(** The state with environment [env], no heap object and nothing printed. *)
Definition bare (env : gmap string string) : state :=
  {| environ := env; store := ∅; stdout := [] |}.

(** [reads_env_only m]: the outcome of [m] and the lines it prints are those
    of its run from [bare (environ st)]; the environment and the store are
    left as they were, and the lines are added after those already there. *)
Definition reads_env_only {A} (m : Py A) : Prop :=
  ∀ st,
    m st = ((m (bare (environ st))).1,
            {| environ := environ st;
               store := store st;
               stdout := stdout st ++ stdout (m (bare (environ st))).2 |}).

Create HintDb py_local discriminated.

(** * Properties *)

(** ** The serialized body *)

Lemma json_dumps_success :
  json_dumps_str "Success" = String dquote ("Success" ++ String dquote "").
Proof. reflexivity. Qed.

Lemma json_dumps_escapes :
  json_dumps_str (String dquote (String backslash (String "010" (String "127" "a"))))
  = String dquote
      (String backslash (String dquote
        (String backslash (String backslash
          (String backslash ("n" ++ String backslash ("u007fa" ++ String dquote ""))))))).
Proof. reflexivity. Qed.

(** ** Name resolution in the module as written *)

Lemma index_globals_print : index_globals !! "print" = None.
Proof. reflexivity. Qed.

Lemma index_globals_os : index_globals !! "os" = None.
Proof. reflexivity. Qed.

Lemma index_globals_json : index_globals !! "json" = Some (ObjModule mod_json).
Proof. reflexivity. Qed.

Lemma builtins_print : builtins !! "print" = Some ObjPrint.
Proof. reflexivity. Qed.

Lemma builtins_os : builtins !! "os" = None.
Proof. reflexivity. Qed.

Lemma load_global_print st :
  load_global index_globals "print" st = (Returned ObjPrint, st).
Proof.
  unfold load_global. by rewrite index_globals_print, builtins_print.
Qed.

Lemma load_global_os st :
  load_global index_globals "os" st = (Raised (NameError "os"), st).
Proof.
  unfold load_global. by rewrite index_globals_os, builtins_os.
Qed.

(** The whole run of the handler in its own module: the first [print]
    succeeds, then resolving [os] raises, and nothing after line 5 runs. *)
Lemma handler_index_globals event context st :
  handler index_globals event context st
  = (Raised (NameError "os"), write_stdout "File uploaded" st).
Proof.
  unfold handler, bind.
  rewrite load_global_print. cbn [call_str print].
  by rewrite load_global_os.
Qed.

(** ** Computations that only read the environment and only write output *)

Lemma reads_env_only_ret {A} (a : A) : reads_env_only (ret a).
Proof. intros [env sto out]. cbn. by rewrite app_nil_r. Qed.

Lemma reads_env_only_raise {A} (e : exn) : reads_env_only (@raise A e).
Proof. intros [env sto out]. cbn. by rewrite app_nil_r. Qed.

Lemma reads_env_only_print s : reads_env_only (print s).
Proof. by intros [env sto out]. Qed.

Lemma reads_env_only_environ_get key : reads_env_only (environ_get key).
Proof. intros [env sto out]. cbn. by rewrite app_nil_r. Qed.

Lemma reads_env_only_bind {A B} (m : Py A) (k : A → Py B) :
  reads_env_only m → (∀ a, reads_env_only (k a)) → reads_env_only (bind m k).
Proof.
  intros Hm Hk st. unfold bind.
  rewrite (Hm st).
  pose proof (Hm (bare (environ st))) as Hbare. cbn in Hbare.
  destruct (m (bare (environ st))) as [[a|e] st1]; cbn in *.
  - injection Hbare as ->. cbn.
    rewrite (Hk a {| environ := environ st; store := store st;
                     stdout := stdout st ++ stdout st1 |}).
    rewrite (Hk a {| environ := environ st; store := ∅; stdout := stdout st1 |}).
    cbn. by rewrite app_assoc.
  - done.
Qed.

Lemma reads_env_only_load_global G name : reads_env_only (load_global G name).
Proof.
  unfold load_global.
  destruct (G !! name); [apply reads_env_only_ret|].
  destruct (builtins !! name);
    [apply reads_env_only_ret | apply reads_env_only_raise].
Qed.

Lemma reads_env_only_getattr o a : reads_env_only (getattr o a).
Proof.
  destruct o as [[]| | | | |], a; cbn;
    first [apply reads_env_only_ret | apply reads_env_only_raise].
Qed.

Lemma reads_env_only_call_str f s : reads_env_only (call_str f s).
Proof.
  destruct f; cbn;
    first [ apply reads_env_only_print | apply reads_env_only_environ_get
          | apply reads_env_only_ret | apply reads_env_only_raise ].
Qed.

#[local] Hint Resolve reads_env_only_ret reads_env_only_raise
  reads_env_only_print reads_env_only_environ_get reads_env_only_load_global
  reads_env_only_getattr reads_env_only_call_str : py_local.

Ltac py_local :=
  repeat (apply reads_env_only_bind; [| intros ?]); auto with py_local.

Lemma handler_reads_env_only G event context :
  reads_env_only (handler G event context).
Proof. unfold handler. py_local. Qed.

(** The arguments do not occur in the body. *)
Lemma handler_args_unused G e1 c1 e2 c2 : handler G e1 c1 = handler G e2 c2.
Proof. reflexivity. Qed.

Lemma handler_environ G event context st :
  environ (handler G event context st).2 = environ st.
Proof. by rewrite (handler_reads_env_only G event context st). Qed.

Lemma handler_store G event context st :
  store (handler G event context st).2 = store st.
Proof. by rewrite (handler_reads_env_only G event context st). Qed.

Lemma handler_outcome G event context st :
  (handler G event context st).1
  = (handler G event context (bare (environ st))).1.
Proof. by rewrite (handler_reads_env_only G event context st). Qed.

Lemma handler_emitted G event context st :
  emitted st (handler G event context st).2
  = stdout (handler G event context (bare (environ st))).2.
Proof.
  unfold emitted. rewrite (handler_reads_env_only G event context st). cbn.
  by rewrite drop_app_length.
Qed.

(** ** The module with [os] imported

    What the same body does once the name [os] resolves to the module.
    These lemmas are about [with_import_os index_globals], not about the
    module as written; they locate the difference in the one missing
    binding. *)

Lemma handler_with_import_os event context st :
  handler (with_import_os index_globals) event context st
  = (Returned success_response,
     write_stdout
       ("Secret ARN: " ++ py_format (match environ st !! config_key with
                                     | Some v => VStr v
                                     | None => VNone
                                     end))
       (write_stdout "File uploaded" st)).
Proof.
  unfold handler, bind, load_global, with_import_os.
  replace (<["os":=ObjModule mod_os]> index_globals !! "print")
    with (@None object) by reflexivity.
  replace (<["os":=ObjModule mod_os]> index_globals !! "os")
    with (Some (ObjModule mod_os)) by reflexivity.
  replace (<["os":=ObjModule mod_os]> index_globals !! "json")
    with (Some (ObjModule mod_json)) by reflexivity.
  rewrite builtins_print. cbn.
  unfold config_key. by destruct (environ st !! "SECRETS_MANAGER_ARN").
Qed.

Lemma with_import_os_key_unset :
  handler (with_import_os index_globals) 0 1 scenario_B
  = (Returned success_response,
     {| environ := ∅; store := scenario_store;
        stdout := ["File uploaded"; "Secret ARN: None"] |}).
Proof. by rewrite handler_with_import_os. Qed.

Lemma with_import_os_key_set :
  handler (with_import_os index_globals) 0 1 scenario_A
  = (Returned success_response,
     {| environ := environ scenario_A; store := scenario_store;
        stdout := ["File uploaded";
                   "Secret ARN: arn:aws:secretsmanager:...:secret:foo"] |}).
Proof. by rewrite handler_with_import_os. Qed.

(** There the key is read: two environments that differ on it give
    different output. *)
Lemma with_import_os_key_matters event context st1 st2 v1 v2 :
  environ st1 !! config_key = Some v1 →
  environ st2 !! config_key = Some v2 →
  v1 ≠ v2 →
  emitted st1 (handler (with_import_os index_globals) event context st1).2
  ≠ emitted st2 (handler (with_import_os index_globals) event context st2).2.
Proof.
  intros H1 H2 Hne. rewrite !handler_emitted, !handler_with_import_os.
  cbn. rewrite H1, H2. cbn. intros [=]. done.
Qed.

(** ** The handler in its own module *)

(** C1.  In scenario A (empty event, key set), the handler of the module
    as written does not return the success response: resolving [os] on
    line 5 raises [NameError], and the [return] on line 9 is not reached. *)
Theorem handler_scenario_A_outcome :
  (handler index_globals 0 1 scenario_A).1 = Raised (NameError "os")
  ∧ (handler index_globals 0 1 scenario_A).1 ≠ Returned success_response.
Proof. by rewrite handler_index_globals. Qed.

(** C2.  For every event, every context and every state, the handler of
    the module as written raises [NameError] for the name [os]. *)
Theorem handler_raises_on_every_input event context st :
  (handler index_globals event context st).1 = Raised (NameError "os").
Proof. by rewrite handler_index_globals. Qed.

(** C3.  In scenario A the handler of the module as written prints one
    line, the upload message, and not two. *)
Theorem handler_scenario_A_prints_one_line :
  stdout (handler index_globals 0 1 scenario_A).2 = ["File uploaded"]
  ∧ length (emitted scenario_A (handler index_globals 0 1 scenario_A).2) = 1.
Proof. by rewrite handler_index_globals. Qed.

(** C6.  In scenario B the key is unset; the handler of the module as
    written raises [NameError], prints no second line and returns no
    response. *)
Theorem handler_scenario_B_raises :
  environ scenario_B !! config_key = None
  ∧ handler index_globals 0 1 scenario_B
    = (Raised (NameError "os"),
       {| environ := ∅; store := scenario_store; stdout := ["File uploaded"] |}).
Proof. by rewrite handler_index_globals. Qed.

(** C8.  In scenario A the key holds the secret locator; the handler of the
    module as written prints no second line, so no printed line is or
    contains the locator, and it returns no response. *)
Theorem handler_scenario_A_no_second_line :
  environ scenario_A !! config_key
  = Some "arn:aws:secretsmanager:...:secret:foo"
  ∧ stdout (handler index_globals 0 1 scenario_A).2 !! 1 = None
  ∧ (handler index_globals 0 1 scenario_A).1 = Raised (NameError "os").
Proof. by rewrite handler_index_globals. Qed.

(** C10.  With the key absent the second line printed by the handler of
    the module as written is not "Secret ARN: None", and with the key
    present it is not "Secret ARN: " followed by the value: in both cases
    there is no second line. *)
Theorem handler_second_line_absent :
  stdout (handler index_globals 0 1 scenario_B).2 !! 1
  ≠ Some "Secret ARN: None"
  ∧ stdout (handler index_globals 0 1 scenario_A).2 !! 1
    ≠ Some ("Secret ARN: " ++ "arn:aws:secretsmanager:...:secret:foo").
Proof. by rewrite !handler_index_globals. Qed.

(** ** Properties of the body under every module namespace *)

(** C4.  An invocation leaves the process environment and the heap, where
    the event and the context objects live, as it found them, whether it
    returns or raises. *)
Theorem handler_mutates_nothing G event context st :
  environ (handler G event context st).2 = environ st
  ∧ store (handler G event context st).2 = store st
  ∧ store (handler G event context st).2 !! event = store st !! event
  ∧ store (handler G event context st).2 !! context = store st !! context.
Proof.
  rewrite handler_environ, handler_store. done.
Qed.

(** Invoked [n] times in a row with the same arguments, the body has the
    outcome of the first invocation every time, returned or raised, and
    the environment and the heap after the [n] invocations are the initial
    ones. *)
Lemma handler_repeatable G n event context st :
  (invocations G n event context st).1
  = replicate n (handler G event context st).1
  ∧ environ (invocations G n event context st).2 = environ st
  ∧ store (invocations G n event context st).2 = store st.
Proof.
  revert st. induction n as [|n IH]; intros st; [done|].
  cbn [invocations replicate].
  pose proof (handler_environ G event context st) as Henv.
  pose proof (handler_store G event context st) as Hsto.
  destruct (handler G event context st) as [o st'] eqn:Hrun. cbn in *.
  destruct (IH st') as (Hout & Henv' & Hsto').
  destruct (invocations G n event context st') as [rest st''] eqn:Hrest.
  cbn in *. split_and!; [|congruence..].
  f_equal. rewrite Hout.
  rewrite (handler_outcome G event context st'), Henv.
  by rewrite <- (handler_outcome G event context st), Hrun.
Qed.

(** C7.  Two invocations in states with the same environment have the same
    outcome and print the same lines, whatever their event and context
    arguments and whatever the heap holds. *)
Theorem handler_ignores_event_and_context G env sto1 sto2 out1 out2 e1 c1 e2 c2 :
  let st1 := {| environ := env; store := sto1; stdout := out1 |} in
  let st2 := {| environ := env; store := sto2; stdout := out2 |} in
  (handler G e1 c1 st1).1 = (handler G e2 c2 st2).1
  ∧ emitted st1 (handler G e1 c1 st1).2 = emitted st2 (handler G e2 c2 st2).2.
Proof.
  intros st1 st2.
  rewrite (handler_outcome G e1 c1 st1), (handler_outcome G e2 c2 st2).
  by rewrite !handler_emitted.
Qed.

(** ** Repeated invocations and the environment, in the module as written *)

Lemma invocations_raise_NameError n event context st :
  (invocations index_globals n event context st).1
  = replicate n (Raised (NameError "os")).
Proof.
  destruct (handler_repeatable index_globals n event context st) as [-> _].
  by rewrite handler_index_globals.
Qed.

(** C5.  In the module as written, repeated invocations do not yield a
    response: three invocations in scenario A raise [NameError] three
    times, and no run of any number of invocations, from any state,
    contains a returned response. *)
Theorem invocations_yield_no_response :
  (invocations index_globals 3 0 1 scenario_A).1
  = [Raised (NameError "os"); Raised (NameError "os"); Raised (NameError "os")]
  ∧ ∀ n event context st r,
      Returned r ∉ (invocations index_globals n event context st).1.
Proof.
  split; [by rewrite invocations_raise_NameError|].
  intros n event context st r. rewrite invocations_raise_NameError.
  intros [Habs _]%elem_of_replicate. discriminate Habs.
Qed.

(** C9.  In the module as written the handler does not read the key
    "SECRETS_MANAGER_ARN", nor any other: scenarios A and B differ on that
    key, and in both the invocation raises [NameError] for [os] on line 5,
    before [os.environ.get] is called, having printed the same single
    line.  This is so for any two states, whatever their environments. *)
Theorem handler_reads_no_key :
  environ scenario_A !! "SECRETS_MANAGER_ARN"
  ≠ environ scenario_B !! "SECRETS_MANAGER_ARN"
  ∧ (handler index_globals 0 1 scenario_A).1 = Raised (NameError "os")
  ∧ (handler index_globals 0 1 scenario_B).1 = Raised (NameError "os")
  ∧ ∀ event context st1 st2,
      (handler index_globals event context st1).1
      = (handler index_globals event context st2).1
      ∧ emitted st1 (handler index_globals event context st1).2
        = emitted st2 (handler index_globals event context st2).2.
Proof.
  split_and!; [done|by rewrite handler_index_globals..|].
  intros event context st1 st2.
  rewrite !handler_emitted, !handler_index_globals. done.
Qed.

(** ** Further properties of the body *)

(** X1.  In the module as written, [n] invocations in a row all raise
    [NameError] for [os], and each adds the upload message to standard
    output before it raises: what was printed is not undone, and no line
    depends on the environment. *)
Theorem invocations_index_globals n event context st :
  (invocations index_globals n event context st).1
  = replicate n (Raised (NameError "os"))
  ∧ stdout (invocations index_globals n event context st).2
    = (stdout st ++ replicate n "File uploaded")%list.
Proof.
  revert st. induction n as [|n IH]; intros st; cbn [invocations replicate].
  - by rewrite app_nil_r.
  - rewrite handler_index_globals.
    destruct (IH (write_stdout "File uploaded" st)) as [Hout Hlog].
    destruct (invocations index_globals n event context _) as [rest st''].
    cbn in *. rewrite Hout, Hlog. by rewrite <- app_assoc.
Qed.


